(** * ChatWindow: the request/response lifecycle of one chat turn

    A shallow embedding of [src/components/ChatWindow.tsx]: the component
    state, the asynchronous turn dispatcher [sendMessage], the send handler
    [handleSend] and the file picker handler [handleFileSelect].

    JavaScript strings are sequences of UTF-16 code units, JSON values are
    an inductive type, and the body of the [async] function is a tree of
    state-setter calls, [await] points and throws, run against a network
    outcome. *)

From Stdlib Require Import List NArith Bool Ascii String Lia PrimFloat.
From Stdlib Require DecimalString.
Import ListNotations.

Set Implicit Arguments.
Local Open Scope N_scope.
Local Open Scope list_scope.

(** ** JavaScript strings *)

(** A string value is the list of its UTF-16 code units. *)
Definition jsstring : Type := list N.

Module JsString.

(** The code units of an ASCII literal of the source. *)
Definition lit (s : string) : jsstring :=
  map N_of_ascii (list_ascii_of_string s).

Fixpoint eqb (a b : jsstring) : bool :=
  match a, b with
  | [], [] => true
  | x :: a', y :: b' => N.eqb x y && eqb a' b'
  | _, _ => false
  end.

(** [WhiteSpace] and [LineTerminator] of ECMAScript: the code units that
    [String.prototype.trim] strips. *)
Definition is_white (c : N) : bool :=
  ((9 <=? c) && (c <=? 13))
  || (c =? 32) || (c =? 160) || (c =? 5760)
  || ((8192 <=? c) && (c <=? 8202))
  || (c =? 8232) || (c =? 8233) || (c =? 8239) || (c =? 8287)
  || (c =? 12288) || (c =? 65279).

Fixpoint trimStart (s : jsstring) : jsstring :=
  match s with
  | c :: s' => if is_white c then trimStart s' else s
  | [] => []
  end.

Definition trimEnd (s : jsstring) : jsstring := rev (trimStart (rev s)).

Definition trim (s : jsstring) : jsstring := trimEnd (trimStart s).

(** A string is falsy exactly when it is empty. *)
Definition truthy (s : jsstring) : bool :=
  match s with [] => false | _ :: _ => true end.

(** [needle] occurs in [s] as a contiguous run of code units. *)
Fixpoint starts_with (needle s : jsstring) : bool :=
  match needle, s with
  | [], _ => true
  | x :: n', y :: s' => N.eqb x y && starts_with n' s'
  | _ :: _, [] => false
  end.

Fixpoint includes (s needle : jsstring) : bool :=
  starts_with needle s
  || match s with
     | [] => false
     | _ :: s' => includes s' needle
     end.

(** Decimal rendering of a non-negative integer, as a template literal
    [`${n}`] produces it. *)
Definition of_N (n : N) : jsstring :=
  lit (DecimalString.NilZero.string_of_uint (N.to_uint n)).

End JsString.

(** ** JavaScript values, as far as [JSON.parse] produces them

    An object is the list of its own properties, each key once; a number
    is a double. *)

#[warnings="-register-all"]
Inductive JsValue : Type :=
| VUndefined
| VNull
| VBool (b : bool)
| VNum (x : float)
| VStr (s : jsstring)
| VArr (items : list JsValue)
| VObj (members : list (jsstring * JsValue)).

Module Js.

(** [ToBoolean]. *)
Definition truthy (v : JsValue) : bool :=
  match v with
  | VUndefined | VNull => false
  | VBool b => b
  | VNum x => negb (PrimFloat.eqb x PrimFloat.zero || PrimFloat.is_nan x)
  | VStr s => JsString.truthy s
  | VArr _ | VObj _ => true
  end.

(** [a || b]. *)
Definition or (a b : JsValue) : JsValue := if truthy a then a else b.

Fixpoint lookup (key : jsstring) (members : list (jsstring * JsValue))
  : JsValue :=
  match members with
  | [] => VUndefined
  | (k, v) :: rest => if JsString.eqb k key then v else lookup key rest
  end.

End Js.

(** ** Data model of the component *)

(** A [File] of the browser, as far as the component reads it. *)
Record File : Type := {
  name : jsstring;
  type : jsstring;
  content : list N
}.

Inductive Sender : Type := user | bot.

(** [ChatMessageType].  The annotation [text: string] is erased at run
    time: [text] holds whatever value the dispatcher stores, so it is a
    [JsValue]; [pdf] is absent ([None]) or a file name. *)
Record ChatMessageType : Type := {
  sender : Sender;
  text : JsValue;
  pdf : option jsstring
}.

(** Thrown values and rejection reasons. *)
Inductive Exn : Type :=
| Error (message : jsstring)
| TypeError (message : jsstring)
| SyntaxError (message : jsstring).

(** [FormData]: the appended entries, in order. *)
Inductive FormValue : Type :=
| FormText (s : jsstring)
| FormFile (f : File).

Definition FormData : Type := list (jsstring * FormValue).

Definition FormData_append (fd : FormData) (field : jsstring) (v : FormValue)
  : FormData := fd ++ [(field, v)].

Record RequestInit : Type := {
  method : jsstring;
  body : FormData
}.

(** A [Response]: its status and what [res.json()] settles to. *)
Record Response : Type := {
  status : N;
  json : Exn + JsValue
}.

(** [res.ok]: the status is in the range 200-299. *)
Definition ok (res : Response) : bool :=
  (200 <=? status res) && (status res <=? 299).

(** ** Effects *)

(** The calls the component makes on its surroundings: the state setters
    of its four [useState] cells, the file input element, the network and
    the console.  [setMessages_append m] is the functional update
    [setMessages(prev => [...prev, m])], and [fileInput_set_value v] the
    assignment [fileInputRef.current.value = v]. *)
Inductive Action : Type :=
| setMessages_append (m : ChatMessageType)
| setLoading (b : bool)
| setInputText (s : jsstring)
| setPdfFile (f : option File)
| fileInput_set_value (v : jsstring)
| fetch_call (url : jsstring) (init : RequestInit)
| console_log (label : jsstring) (v : JsValue)
| console_error (label : jsstring) (e : Exn).

Inductive Promise : Type -> Type :=
| fetch_promise (url : jsstring) (init : RequestInit) : Promise Response
| json_promise (res : Response) : Promise JsValue.

(** The body of a function, possibly [async]: it returns, throws, performs
    an action and goes on, or awaits a promise and goes on with what the
    promise settled to. *)
Inductive Proc (A : Type) : Type :=
| Ret (a : A)
| Throw (e : Exn)
| Do (act : Action) (k : Proc A)
| Await (X : Type) (p : Promise X) (k : Exn + X -> Proc A).

Arguments Ret {A} a.
Arguments Throw {A} e.
Arguments Do {A} act k.
Arguments Await {A X} p k.

Module ProcMonad.

Fixpoint bind {A B : Type} (p : Proc A) (f : A -> Proc B) : Proc B :=
  match p with
  | Ret a => f a
  | Throw e => Throw e
  | Do act k => Do act (bind k f)
  | Await pr k => Await pr (fun r => bind (k r) f)
  end.

Definition perform (act : Action) : Proc unit := Do act (Ret tt).

(** [await p]: the fulfilment value, or a throw of the rejection reason. *)
Definition await {X : Type} (p : Promise X) : Proc X :=
  Await p (fun r => match r with inl e => Throw e | inr x => Ret x end).

(** [try { p } catch (err) { h err }]. *)
Fixpoint catch {A : Type} (p : Proc A) (h : Exn -> Proc A) : Proc A :=
  match p with
  | Ret a => Ret a
  | Throw e => h e
  | Do act k => Do act (catch k h)
  | Await pr k => Await pr (fun r => catch (k r) h)
  end.

(** [try { p } finally { f }]: [f] runs on every exit of [p], and the
    exit of [p] stands unless [f] itself throws. *)
Fixpoint finally {A : Type} (p : Proc A) (f : Proc unit) : Proc A :=
  match p with
  | Ret a => bind f (fun _ => Ret a)
  | Throw e => bind f (fun _ => Throw e)
  | Do act k => Do act (finally k f)
  | Await pr k => Await pr (fun r => finally (k r) f)
  end.

Definition try_catch_finally {A : Type}
  (p : Proc A) (h : Exn -> Proc A) (f : Proc unit) : Proc A :=
  finally (catch p h) f.

End ProcMonad.

Import ProcMonad.

Declare Scope proc_scope.
Delimit Scope proc_scope with proc.
Notation "x <- c ;; k" := (bind c (fun x => k))
  (at level 61, c at next level, right associativity) : proc_scope.
Notation "c ;; k" := (bind c (fun _ => k))
  (at level 61, right associativity) : proc_scope.
Notation "'try' p 'catch' h 'finally' f" := (try_catch_finally p h f)
  (at level 62, p at level 61, h at level 0, f at level 0) : proc_scope.
Local Open Scope proc_scope.

(** ** The component *)

(** The component's state: the four [useState] cells, the value of the
    file input element behind [fileInputRef] ([None] while the ref is
    null), and the observable surroundings (requests issued, console). *)
Record State : Type := {
  messages : list ChatMessageType;
  loading : bool;
  inputText : jsstring;
  pdfFile : option File;
  fileInput : option jsstring;
  requests : list (jsstring * RequestInit);
  console : list (jsstring * (Exn + JsValue))
}.

Definition initial : State :=
  {| messages := []; loading := false; inputText := []; pdfFile := None;
     fileInput := Some []; requests := []; console := [] |}.

Definition apply (act : Action) (st : State) : State :=
  match act with
  | setMessages_append m =>
      {| messages := messages st ++ [m]; loading := loading st;
         inputText := inputText st; pdfFile := pdfFile st;
         fileInput := fileInput st; requests := requests st;
         console := console st |}
  | setLoading b =>
      {| messages := messages st; loading := b;
         inputText := inputText st; pdfFile := pdfFile st;
         fileInput := fileInput st; requests := requests st;
         console := console st |}
  | setInputText s =>
      {| messages := messages st; loading := loading st;
         inputText := s; pdfFile := pdfFile st;
         fileInput := fileInput st; requests := requests st;
         console := console st |}
  | setPdfFile f =>
      {| messages := messages st; loading := loading st;
         inputText := inputText st; pdfFile := f;
         fileInput := fileInput st; requests := requests st;
         console := console st |}
  | fileInput_set_value v =>
      {| messages := messages st; loading := loading st;
         inputText := inputText st; pdfFile := pdfFile st;
         fileInput := option_map (fun _ => v) (fileInput st);
         requests := requests st; console := console st |}
  | fetch_call url init =>
      {| messages := messages st; loading := loading st;
         inputText := inputText st; pdfFile := pdfFile st;
         fileInput := fileInput st;
         requests := requests st ++ [(url, init)];
         console := console st |}
  | console_log label v =>
      {| messages := messages st; loading := loading st;
         inputText := inputText st; pdfFile := pdfFile st;
         fileInput := fileInput st; requests := requests st;
         console := console st ++ [(label, inr v)] |}
  | console_error label e =>
      {| messages := messages st; loading := loading st;
         inputText := inputText st; pdfFile := pdfFile st;
         fileInput := fileInput st; requests := requests st;
         console := console st ++ [(label, inl e)] |}
  end.

(** The state after a sequence of actions, first action first. *)
Definition exec (tr : list Action) (st : State) : State :=
  fold_left (fun s act => apply act s) tr st.

(** *** String literals of the source *)

(** The sign U+26A0 followed by the variation selector U+FE0F. *)
Definition WARNING_SIGN : jsstring := [9888; 65039].

Definition NO_RESPONSE_TEXT : jsstring :=
  WARNING_SIGN ++ JsString.lit " No response field in server reply.".

Definition ERROR_TEXT : jsstring :=
  WARNING_SIGN ++ JsString.lit " Error connecting to server.".

Definition ASK_URL : jsstring := JsString.lit "http://127.0.0.1:8000/ask".

(** *** Calls on the platform *)

(** [fetch(url, init)]: the request is issued by the call, which returns
    a promise. *)
Definition fetch (url : jsstring) (init : RequestInit)
  : Proc (Promise Response) :=
  Do (fetch_call url init) (Ret (fetch_promise url init)).

(** [data.response]: reading a property of [null] or [undefined] throws a
    [TypeError] (with the engine's message); an object yields its member
    or [undefined]; strings, numbers, booleans and arrays have no property
    of this name. *)
Definition get_response (data : JsValue) : Proc JsValue :=
  match data with
  | VUndefined =>
      Throw (TypeError
               (JsString.lit
                  "Cannot read properties of undefined (reading 'response')"))
  | VNull =>
      Throw (TypeError
               (JsString.lit
                  "Cannot read properties of null (reading 'response')"))
  | VObj members => Ret (Js.lookup (JsString.lit "response") members)
  | VBool _ | VNum _ | VStr _ | VArr _ => Ret VUndefined
  end.

Definition is_some {A : Type} (o : option A) : bool :=
  match o with Some _ => true | None => false end.

(** *** [sendMessage] *)

Definition sendMessage (userQuery : jsstring) (pdfFile : option File)
  : Proc unit :=
  if negb (JsString.truthy (JsString.trim userQuery)) && negb (is_some pdfFile)
  then Ret tt
  else
    perform (setMessages_append
               {| sender := user; text := VStr userQuery;
                  pdf := option_map name pdfFile |}) ;;
    perform (setLoading true) ;;
    (try
      (let formData : FormData := [] in
       let formData :=
         FormData_append formData (JsString.lit "user_query")
           (FormText userQuery) in
       let formData :=
         match pdfFile with
         | Some f =>
             FormData_append formData (JsString.lit "pdf_file") (FormFile f)
         | None => formData
         end in
       p <- fetch ASK_URL
              {| method := JsString.lit "POST"; body := formData |} ;;
       res <- await p ;;
       (if negb (ok res)
        then Throw (Error (JsString.lit "Server error: "
                             ++ JsString.of_N (status res)))
        else Ret tt) ;;
       data <- await (json_promise res) ;;
       perform (console_log (JsString.lit "API Response:") data) ;;
       response <- get_response data ;;
       perform (setMessages_append
                  {| sender := bot;
                     text := Js.or response (VStr NO_RESPONSE_TEXT);
                     pdf := None |}))
    catch
      (fun err =>
         perform (console_error (JsString.lit "Fetch error:") err) ;;
         perform (setMessages_append
                    {| sender := bot; text := VStr ERROR_TEXT;
                       pdf := None |}))
    finally
      (perform (setLoading false))).

(** ** Running a body *)

(** What the network does with a request: the promise of [fetch] rejects
    or resolves to a response. *)
Definition Network : Type := jsstring -> RequestInit -> Exn + Response.

Definition settle (net : Network) {X : Type} (p : Promise X) : Exn + X :=
  match p in Promise T return Exn + T with
  | fetch_promise url init => net url init
  | json_promise res => json res
  end.

(** The actions of a body run to its end, and how it ends. *)
Fixpoint run (net : Network) {A : Type} (p : Proc A)
  : list Action * (Exn + A) :=
  match p with
  | Ret a => ([], inr a)
  | Throw e => ([], inl e)
  | Do act k => let (tr, r) := run net k in (act :: tr, r)
  | Await pr k => run net (k (settle net pr))
  end.

(** The actions a call performs before its first [await], at which an
    [async] function hands control back to its caller. *)
Fixpoint sync_trace {A : Type} (p : Proc A) : list Action :=
  match p with
  | Do act k => act :: sync_trace k
  | Ret _ | Throw _ | Await _ _ => []
  end.

(** What is left of the call at that point. *)
Fixpoint pending {A : Type} (p : Proc A) : Proc A :=
  match p with
  | Do _ k => pending k
  | Ret _ | Throw _ | Await _ _ => p
  end.

(** The actions performed once the network call has settled. *)
Definition settled_trace (net : Network) {A : Type} (p : Proc A)
  : list Action :=
  fst (run net (pending p)).

(** *** [handleSend] *)

(** What an event handler does at once, and the calls it leaves pending. *)
Record Handled : Type := {
  now : list Action;
  later : list (Proc unit)
}.

(** [handleSend] reads [inputText], [pdfFile] and [fileInputRef.current];
    its call of [sendMessage] is not awaited. *)
Definition handleSend (st : State) : Handled :=
  if JsString.truthy (JsString.trim (inputText st)) || is_some (pdfFile st)
  then
    let call := sendMessage (inputText st) (pdfFile st) in
    {| now := sync_trace call
              ++ [setInputText []; setPdfFile None]
              ++ match fileInput st with
                 | Some _ => [fileInput_set_value []]
                 | None => []
                 end;
       later := [pending call] |}
  else {| now := []; later := [] |}.

(** *** [handleFileSelect] *)

(** [e.target.files?.[0]]: [files] is null or a list of files. *)
Definition first_file (files : option (list File)) : option File :=
  match files with
  | Some (f :: _) => Some f
  | Some [] | None => None
  end.

Definition PDF_TYPE : jsstring := JsString.lit "application/pdf".

Definition handleFileSelect (files : option (list File)) : list Action :=
  match first_file files with
  | Some file =>
      if JsString.eqb (type file) PDF_TYPE
      then [setPdfFile (Some file)]
      else []
  | None => []
  end.

(** * Notions of the specification *)

(** The text is empty or consists of white space only. *)
Definition whitespace_only (s : jsstring) : bool :=
  forallb JsString.is_white s.

(** The messages a trace appends, in order. *)
Fixpoint appended (tr : list Action) : list ChatMessageType :=
  match tr with
  | [] => []
  | setMessages_append m :: tr' => m :: appended tr'
  | _ :: tr' => appended tr'
  end.

(** The values a trace writes to the pending flag, in order. *)
Fixpoint loading_writes (tr : list Action) : list bool :=
  match tr with
  | [] => []
  | setLoading b :: tr' => b :: loading_writes tr'
  | _ :: tr' => loading_writes tr'
  end.

(** The requests a trace issues, in order. *)
Fixpoint fetches (tr : list Action) : list (jsstring * RequestInit) :=
  match tr with
  | [] => []
  | fetch_call url init :: tr' => (url, init) :: fetches tr'
  | _ :: tr' => fetches tr'
  end.

(** The trace leaves the staged input and the file picker alone. *)
Fixpoint keeps_input (tr : list Action) : bool :=
  match tr with
  | [] => true
  | (setInputText _ | setPdfFile _ | fileInput_set_value _) :: _ => false
  | _ :: tr' => keeps_input tr'
  end.

(** A turn is dispatched when the text is not white space only, or a
    file is staged. *)
Definition dispatched (q : jsstring) (f : option File) : bool :=
  negb (whitespace_only q) || is_some f.

(** The multipart payload: the text under one field and, if a file is
    there, the file under another. *)
Definition payload (q : jsstring) (f : option File) : FormData :=
  (JsString.lit "user_query", FormText q)
  :: match f with
     | Some file => [(JsString.lit "pdf_file", FormFile file)]
     | None => []
     end.

Definition request (q : jsstring) (f : option File) : RequestInit :=
  {| method := JsString.lit "POST"; body := payload q f |}.

Definition user_message (q : jsstring) (f : option File) : ChatMessageType :=
  {| sender := user; text := VStr q; pdf := option_map name f |}.

Definition bot_message (v : JsValue) : ChatMessageType :=
  {| sender := bot; text := v; pdf := None |}.

(** What the [catch] block does with the caught value. *)
Definition error_trace (err : Exn) : list Action :=
  [console_error (JsString.lit "Fetch error:") err;
   setMessages_append (bot_message (VStr ERROR_TEXT));
   setLoading false].

(** The value thrown on a response that is not [ok]. *)
Definition server_error (res : Response) : Exn :=
  Error (JsString.lit "Server error: " ++ JsString.of_N (status res)).

(** A turn that failed with the caught value [err]: one request and no
    other, the caught value goes to the console, the only trace of it in
    the state is one bot message with the error text, the pending flag
    ends false, and the call itself ends without a throw. *)
Definition failed_turn
  (q : jsstring) (f : option File) (net : Network) (err : Exn) : Prop :=
  run net (sendMessage q f)
  = ([setMessages_append (user_message q f);
      setLoading true;
      fetch_call ASK_URL (request q f);
      console_error (JsString.lit "Fetch error:") err;
      setMessages_append (bot_message (VStr ERROR_TEXT));
      setLoading false],
     inr tt)
  /\ forall st,
       messages (exec (settled_trace net (sendMessage q f)) st)
       = messages st ++ [bot_message (VStr ERROR_TEXT)]
       /\ loading (exec (settled_trace net (sendMessage q f)) st) = false
       /\ requests (exec (settled_trace net (sendMessage q f)) st)
          = requests st.

Definition RESPONSE : jsstring := JsString.lit "response".

(** The member of an object under a key, if the value is an object that
    has one. *)
Definition field (key : jsstring) (data : JsValue) : option JsValue :=
  match data with
  | VObj members =>
      option_map snd (find (fun kv => JsString.eqb (fst kv) key) members)
  | _ => None
  end.

(** [null] and [undefined], whose properties cannot be read. *)
Definition nullish (v : JsValue) : bool :=
  match v with
  | VUndefined | VNull => true
  | _ => false
  end.

(** ** Sample inputs *)

Definition hello : jsstring := JsString.lit "hello".

Definition blank : jsstring := JsString.lit "   ".

Definition report : File :=
  {| name := JsString.lit "report.pdf"; type := PDF_TYPE;
     content := [37; 80; 68; 70] |}.

Definition photo : File :=
  {| name := JsString.lit "photo.png"; type := JsString.lit "image/png";
     content := [137; 80; 78; 71] |}.

(** A network that settles every request in the same way. *)
Definition answers (r : Exn + Response) : Network := fun _ _ => r.

Definition success (data : JsValue) : Exn + Response :=
  inr {| status := 200; json := inr data |}.

Definition http_500 : Exn + Response :=
  inr {| status := 500; json := inr (VObj []) |}.

Definition offline : Exn + Response :=
  inl (TypeError (JsString.lit "Failed to fetch")).

Definition garbled : Exn + Response :=
  inr {| status := 200;
         json := inl (SyntaxError (JsString.lit "Unexpected token")) |}.

(** The body [{ "response": s }]. *)
Definition reply (s : jsstring) : JsValue := VObj [(RESPONSE, VStr s)].

(** * The rest of the component *)

(** ** The remaining handlers *)

(** The part of a [React.KeyboardEvent] that [handleKeyPress] reads. *)
Record KeyboardEvent : Type := {
  key : jsstring;
  shiftKey : bool
}.

(** What a key handler did: whether it called [e.preventDefault()], and
    what else it did. *)
Record KeyHandled : Type := {
  defaultPrevented : bool;
  handled : Handled
}.

Definition nothing : Handled := {| now := []; later := [] |}.

(** [handleKeyPress]. *)
Definition handleKeyPress (e : KeyboardEvent) (st : State) : KeyHandled :=
  if JsString.eqb (key e) (JsString.lit "Enter") && negb (shiftKey e)
  then {| defaultPrevented := true; handled := handleSend st |}
  else {| defaultPrevented := false; handled := nothing |}.

(** The textarea's [onChange]: [(e) => setInputText(e.target.value)]. *)
Definition handleChange (value : jsstring) : list Action :=
  [setInputText value].

(** The [onClick] of the button beside the staged file's name:
    [() => setPdfFile(null)]. *)
Definition handleRemoveFile : list Action := [setPdfFile None].

(** ** What is rendered *)

(** The [disabled] attributes of the upload button, the textarea and the
    send button. *)
Definition upload_disabled (st : State) : bool := loading st.

Definition textarea_disabled (st : State) : bool := loading st.

Definition send_disabled (st : State) : bool :=
  loading st
  || (negb (JsString.truthy (JsString.trim (inputText st)))
      && negb (is_some (pdfFile st))).

(** One bubble of the thread: the side it is on, the attachment row
    ([msg.pdf && ...], so an absent or empty name shows no row) and the
    text. *)
Record Bubble : Type := {
  isUser : bool;
  attachment : option jsstring;
  shown_text : JsValue
}.

Definition ChatMessage (msg : ChatMessageType) : Bubble :=
  {| isUser := match sender msg with user => true | bot => false end;
     attachment :=
       match pdf msg with
       | Some n => if JsString.truthy n then Some n else None
       | None => None
       end;
     shown_text := text msg |}.

(** The stethoscope U+1FA7A, as its surrogate pair. *)
Definition STETHOSCOPE : jsstring := [55358; 56954].

(** The heading chosen by [location.pathname]. *)
Definition heading (path : jsstring) : jsstring :=
  if JsString.eqb path (JsString.lit "/chat")
  then JsString.lit "AI Health Assistant " ++ STETHOSCOPE
  else if JsString.eqb path (JsString.lit "/abha-bot")
       then JsString.lit "Virtual Doctor Appointments"
       else JsString.lit "Medical AI Chat".

(** What the component returns, without its styling. *)
Record View : Type := {
  title : jsstring;
  welcome : bool;
  bubbles : list Bubble;
  analyzing : bool;
  staged_name : option jsstring;
  upload_off : bool;
  textarea_value : jsstring;
  textarea_off : bool;
  send_off : bool
}.

Definition render (path : jsstring) (st : State) : View :=
  {| title := heading path;
     welcome := Nat.eqb (List.length (messages st)) 0;
     bubbles := map ChatMessage (messages st);
     analyzing := loading st;
     staged_name := option_map name (pdfFile st);
     upload_off := upload_disabled st;
     textarea_value := inputText st;
     textarea_off := textarea_disabled st;
     send_off := send_disabled st |}.

(** ** The component in use *)

(** The mounted component: its state and the calls of [sendMessage] that
    are waiting for the network. *)
Record Session : Type := {
  state : State;
  in_flight : list (Proc unit)
}.

Definition mounted : Session := {| state := initial; in_flight := [] |}.

(** What can happen to it: the user acts on one of the controls, or the
    network settles the request of a waiting call. *)
Inductive UiEvent : Type :=
| Change (value : jsstring)
| KeyDown (e : KeyboardEvent)
| ClickSend
| FileChange (files : option (list File))
| ClickRemoveFile
| Settled (n : nat) (r : Exn + Response).

Definition commit (h : Handled) (c : Session) : Session :=
  {| state := exec (now h) (state c);
     in_flight := in_flight c ++ later h |}.

Definition remove_nth {A : Type} (n : nat) (l : list A) : list A :=
  firstn n l ++ skipn (S n) l.

(** The session after an event, or [None] where the event cannot occur:
    a disabled control takes no input, the remove button is rendered only
    beside a staged file, and only a waiting call can be settled.  The
    file input itself is never disabled. *)
Definition fire (ev : UiEvent) (c : Session) : option Session :=
  match ev with
  | Change value =>
      if textarea_disabled (state c) then None
      else Some (commit {| now := handleChange value; later := [] |} c)
  | KeyDown e =>
      if textarea_disabled (state c) then None
      else Some (commit (handled (handleKeyPress e (state c))) c)
  | ClickSend =>
      if send_disabled (state c) then None
      else Some (commit (handleSend (state c)) c)
  | FileChange files =>
      Some (commit {| now := handleFileSelect files; later := [] |} c)
  | ClickRemoveFile =>
      if is_some (pdfFile (state c))
      then Some (commit {| now := handleRemoveFile; later := [] |} c)
      else None
  | Settled n r =>
      match nth_error (in_flight c) n with
      | Some p =>
          Some {| state := exec (fst (run (fun _ _ => r) p)) (state c);
                  in_flight := remove_nth n (in_flight c) |}
      | None => None
      end
  end.

Fixpoint fire_all (evs : list UiEvent) (c : Session) : option Session :=
  match evs with
  | [] => Some c
  | ev :: evs' =>
      match fire ev c with
      | Some c' => fire_all evs' c'
      | None => None
      end
  end.

(** ** Notions for the thread *)

Definition is_user (m : ChatMessageType) : bool :=
  match sender m with user => true | bot => false end.

(** The thread is a run of turns, a user message then a bot message
    each, followed by one more user message exactly when a reply is
    awaited. *)
Fixpoint well_threaded (awaited : bool) (ms : list ChatMessageType) : bool :=
  match ms with
  | [] => negb awaited
  | u :: rest =>
      is_user u
      && match rest with
         | [] => awaited
         | b :: rest' => negb (is_user b) && well_threaded awaited rest'
         end
  end.

(** A message as the dispatcher makes them: a user message carries a
    string, a bot message no file name. *)
Definition dispatcher_made (m : ChatMessageType) : bool :=
  match sender m with
  | user => match text m with VStr _ => true | _ => false end
  | bot => match pdf m with None => true | Some _ => false end
  end.

(** A waiting call of [sendMessage] that passed the guard. *)
Definition waiting_turn (p : Proc unit) : Prop :=
  exists q f, dispatched q f = true /\ p = pending (sendMessage q f).

(** What holds of the mounted component after any sequence of events. *)
Definition sound (c : Session) : Prop :=
  well_threaded (loading (state c)) (messages (state c)) = true
  /\ forallb dispatcher_made (messages (state c)) = true
  /\ List.length (requests (state c))
     = List.length (filter is_user (messages (state c)))
  /\ if loading (state c)
     then exists p, in_flight c = [p] /\ waiting_turn p
     else in_flight c = [].

(** * Properties *)

(** ** Strings *)

Section StringFacts.

Lemma eqb_eq (a b : jsstring) : JsString.eqb a b = true <-> a = b.
Proof.
  revert b; induction a as [|x a IH]; intros [|y b]; simpl;
    try (split; [discriminate | congruence]).
  - split; reflexivity.
  - rewrite andb_true_iff, N.eqb_eq, IH.
    split; [intros [-> ->]; reflexivity | intros H; inversion H; auto].
Qed.

Lemma eqb_neq (a b : jsstring) : JsString.eqb a b = false <-> a <> b.
Proof.
  rewrite <- eqb_eq. destruct (JsString.eqb a b); split; congruence.
Qed.

Lemma trimStart_white (s : jsstring) :
  whitespace_only (JsString.trimStart s) = whitespace_only s.
Proof.
  induction s as [|c s IH]; simpl; [reflexivity|].
  destruct (JsString.is_white c) eqn:Hc; simpl; [exact IH|].
  rewrite Hc; reflexivity.
Qed.

Lemma trimStart_truthy (s : jsstring) :
  JsString.truthy (JsString.trimStart s) = negb (whitespace_only s).
Proof.
  induction s as [|c s IH]; simpl; [reflexivity|].
  destruct (JsString.is_white c); simpl; [exact IH | reflexivity].
Qed.

Lemma whitespace_only_rev (s : jsstring) :
  whitespace_only (rev s) = whitespace_only s.
Proof.
  unfold whitespace_only.
  induction s as [|c s IH]; simpl; [reflexivity|].
  rewrite forallb_app, IH; simpl.
  rewrite andb_true_r; apply andb_comm.
Qed.

Lemma truthy_rev (s : jsstring) :
  JsString.truthy (rev s) = JsString.truthy s.
Proof.
  destruct s as [|c s]; simpl; [reflexivity|].
  destruct (rev s); reflexivity.
Qed.

(** [s.trim()] is the empty string exactly for such a text. *)
Lemma trim_truthy (s : jsstring) :
  JsString.truthy (JsString.trim s) = negb (whitespace_only s).
Proof.
  unfold JsString.trim, JsString.trimEnd.
  rewrite truthy_rev, trimStart_truthy, whitespace_only_rev.
  rewrite trimStart_white; reflexivity.
Qed.

End StringFacts.

(** ** What a trace does to the state *)

Section Traces.

Lemma exec_cons act tr st : exec (act :: tr) st = exec tr (apply act st).
Proof. reflexivity. Qed.

Lemma exec_app tr1 tr2 st : exec (tr1 ++ tr2) st = exec tr2 (exec tr1 st).
Proof. unfold exec; apply fold_left_app. Qed.

Lemma messages_exec tr : forall st,
  messages (exec tr st) = messages st ++ appended tr.
Proof.
  induction tr as [|act tr IH]; intros st.
  - simpl; rewrite app_nil_r; reflexivity.
  - rewrite exec_cons, IH.
    destruct act; simpl; try reflexivity.
    rewrite <- app_assoc; reflexivity.
Qed.

Lemma last_cons_default (A : Type) (x : A) (l : list A) (d d' : A) :
  last (x :: l) d = last (x :: l) d'.
Proof.
  revert x; induction l as [|y l IH]; intros x; [reflexivity|].
  change (last (y :: l) d = last (y :: l) d'); apply IH.
Qed.

Lemma loading_exec tr : forall st,
  loading (exec tr st) = last (loading_writes tr) (loading st).
Proof.
  induction tr as [|act tr IH]; intros st; [reflexivity|].
  rewrite exec_cons, IH.
  destruct act; simpl; try reflexivity.
  destruct (loading_writes tr) as [|b' l]; [reflexivity|].
  apply last_cons_default.
Qed.

Lemma requests_exec tr : forall st,
  requests (exec tr st) = requests st ++ fetches tr.
Proof.
  induction tr as [|act tr IH]; intros st.
  - simpl; rewrite app_nil_r; reflexivity.
  - rewrite exec_cons, IH.
    destruct act; simpl; try reflexivity.
    rewrite <- app_assoc; reflexivity.
Qed.

Lemma keeps_input_exec tr : keeps_input tr = true -> forall st,
  inputText (exec tr st) = inputText st
  /\ pdfFile (exec tr st) = pdfFile st
  /\ fileInput (exec tr st) = fileInput st.
Proof.
  induction tr as [|act tr IH]; intros Hk st; [repeat split|].
  rewrite exec_cons.
  destruct act; simpl in Hk; try discriminate;
    match goal with
    | |- context [exec tr (apply ?a st)] =>
        destruct (IH Hk (apply a st)) as (H1 & H2 & H3)
    end; rewrite H1, H2, H3; repeat split.
Qed.

Lemma appended_app tr1 tr2 :
  appended (tr1 ++ tr2) = appended tr1 ++ appended tr2.
Proof.
  induction tr1 as [|act tr1 IH]; [reflexivity|].
  destruct act; simpl; rewrite IH; reflexivity.
Qed.

Lemma loading_writes_app tr1 tr2 :
  loading_writes (tr1 ++ tr2) = loading_writes tr1 ++ loading_writes tr2.
Proof.
  induction tr1 as [|act tr1 IH]; [reflexivity|].
  destruct act; simpl; rewrite IH; reflexivity.
Qed.

Lemma fetches_app tr1 tr2 :
  fetches (tr1 ++ tr2) = fetches tr1 ++ fetches tr2.
Proof.
  induction tr1 as [|act tr1 IH]; [reflexivity|].
  destruct act; simpl; rewrite IH; reflexivity.
Qed.

Lemma keeps_input_app tr1 tr2 :
  keeps_input (tr1 ++ tr2) = keeps_input tr1 && keeps_input tr2.
Proof.
  induction tr1 as [|act tr1 IH]; [reflexivity|].
  destruct act; simpl; try rewrite IH; reflexivity.
Qed.

Lemma run_Do net (A : Type) act (k : Proc A) :
  run net (Do act k) = (act :: fst (run net k), snd (run net k)).
Proof. simpl; destruct (run net k); reflexivity. Qed.

(** A run is the part before the first [await] followed by the rest. *)
Lemma run_split net (A : Type) (p : Proc A) :
  run net p = (sync_trace p ++ settled_trace net p, snd (run net (pending p))).
Proof.
  unfold settled_trace.
  induction p as [a|e|act k IH|X pr k _]; try (simpl; apply surjective_pairing).
  rewrite run_Do, IH; reflexivity.
Qed.

End Traces.

(** ** The turn dispatcher, path by path *)

Section Dispatch.

Lemma guard_dispatched q f :
  negb (JsString.truthy (JsString.trim q)) && negb (is_some f)
  = negb (dispatched q f).
Proof.
  unfold dispatched. rewrite trim_truthy, negb_orb. reflexivity.
Qed.

Local Arguments JsString.lit : simpl never.
Local Arguments JsString.of_N : simpl never.
Local Arguments ASK_URL : simpl never.
Local Arguments ERROR_TEXT : simpl never.
Local Arguments NO_RESPONSE_TEXT : simpl never.
Local Arguments ok : simpl never.
Local Arguments Js.or : simpl never.
Local Arguments Js.lookup : simpl never.

Ltac enter Hd :=
  unfold sendMessage; rewrite guard_dispatched, Hd;
  unfold request, payload, user_message, bot_message, error_trace,
    server_error in *;
  match goal with
  | f : option File |- _ => destruct f
  end; cbn in *.

Lemma sendMessage_rejected q f :
  dispatched q f = false -> sendMessage q f = Ret tt.
Proof.
  intros Hd. unfold sendMessage. rewrite guard_dispatched, Hd. reflexivity.
Qed.

Lemma sendMessage_sync q f :
  dispatched q f = true ->
  sync_trace (sendMessage q f)
  = [setMessages_append (user_message q f);
     setLoading true;
     fetch_call ASK_URL (request q f)].
Proof. intros Hd. enter Hd; reflexivity. Qed.

Variable net : Network.

(** Between the settlement of [fetch] and that of [res.json()] the call
    performs no action: an [ok] response leads straight to the second
    [await].  So the actions after the first [await] all happen once the
    body has settled. *)
Lemma no_action_between_awaits q f res :
  dispatched q f = true ->
  ok res = true ->
  exists k k',
    pending (sendMessage q f) = Await (fetch_promise ASK_URL (request q f)) k
    /\ k (inr res) = Await (json_promise res) k'.
Proof.
  intros Hd Hok.
  enter Hd; (do 2 eexists; split; [reflexivity|]); cbn;
    rewrite Hok; reflexivity.
Qed.

(** The promise of [fetch] rejects. *)
Lemma settled_fetch_rejected q f e :
  dispatched q f = true ->
  net ASK_URL (request q f) = inl e ->
  run net (pending (sendMessage q f)) = (error_trace e, inr tt).
Proof. intros Hd Hnet. enter Hd; rewrite Hnet; reflexivity. Qed.

(** The response is not [ok]. *)
Lemma settled_not_ok q f res :
  dispatched q f = true ->
  net ASK_URL (request q f) = inr res ->
  ok res = false ->
  run net (pending (sendMessage q f))
  = (error_trace (server_error res), inr tt).
Proof.
  intros Hd Hnet Hok.
  enter Hd; rewrite Hnet; cbn; rewrite Hok; reflexivity.
Qed.

(** [res.json()] rejects. *)
Lemma settled_json_rejected q f res e :
  dispatched q f = true ->
  net ASK_URL (request q f) = inr res ->
  ok res = true ->
  json res = inl e ->
  run net (pending (sendMessage q f)) = (error_trace e, inr tt).
Proof.
  intros Hd Hnet Hok Hjson.
  enter Hd; rewrite Hnet; cbn; rewrite Hok; cbn; rewrite Hjson; reflexivity.
Qed.

(** The body is parsed and reading [data.response] throws. *)
Lemma settled_response_throws q f res data e :
  dispatched q f = true ->
  net ASK_URL (request q f) = inr res ->
  ok res = true ->
  json res = inr data ->
  get_response data = Throw e ->
  run net (pending (sendMessage q f))
  = (console_log (JsString.lit "API Response:") data :: error_trace e,
     inr tt).
Proof.
  intros Hd Hnet Hok Hjson Hget.
  enter Hd; rewrite Hnet; cbn; rewrite Hok; cbn; rewrite Hjson; cbn;
    rewrite Hget; reflexivity.
Qed.

(** The body is parsed and [data.response] evaluates to [v]. *)
Lemma settled_response_read q f res data v :
  dispatched q f = true ->
  net ASK_URL (request q f) = inr res ->
  ok res = true ->
  json res = inr data ->
  get_response data = Ret v ->
  run net (pending (sendMessage q f))
  = ([console_log (JsString.lit "API Response:") data;
      setMessages_append (bot_message (Js.or v (VStr NO_RESPONSE_TEXT)));
      setLoading false],
     inr tt).
Proof.
  intros Hd Hnet Hok Hjson Hget.
  enter Hd; rewrite Hnet; cbn; rewrite Hok; cbn; rewrite Hjson; cbn;
    rewrite Hget; reflexivity.
Qed.

Lemma get_response_cases data :
  (exists e, get_response data = Throw e)
  \/ (exists v, get_response data = Ret v).
Proof. destruct data; simpl; eauto. Qed.

(** Every settlement of the network call appends one bot message and
    then writes [false] to the pending flag, and the call ends without
    a throw. *)
Lemma settled_shape q f :
  dispatched q f = true ->
  exists pre v,
    run net (pending (sendMessage q f))
    = (pre ++ [setMessages_append (bot_message v); setLoading false],
       inr tt)
    /\ appended pre = [] /\ loading_writes pre = []
    /\ fetches pre = [] /\ keeps_input pre = true.
Proof.
  intros Hd.
  destruct (net ASK_URL (request q f)) as [e|res] eqn:Hnet.
  { eexists [_], _; split;
      [apply (settled_fetch_rejected Hd Hnet) | repeat split]. }
  destruct (ok res) eqn:Hok.
  2:{ eexists [_], _; split;
        [apply (settled_not_ok Hd Hnet Hok) | repeat split]. }
  destruct (json res) as [e|data] eqn:Hjson.
  { eexists [_], _; split;
      [apply (settled_json_rejected Hd Hnet Hok Hjson) | repeat split]. }
  destruct (get_response_cases data) as [[e Hget]|[v Hget]].
  - eexists [_; _], _; split;
      [apply (settled_response_throws Hd Hnet Hok Hjson Hget)
      | repeat split].
  - eexists [_], _; split;
      [apply (settled_response_read Hd Hnet Hok Hjson Hget)
      | repeat split].
Qed.

End Dispatch.

(** ** The lifecycle of a turn *)

Section Lifecycle.

Variable net : Network.

(** What a settlement does, read off the trace. *)
Lemma settled_summary q f :
  dispatched q f = true ->
  exists v,
    appended (settled_trace net (sendMessage q f)) = [bot_message v]
    /\ loading_writes (settled_trace net (sendMessage q f)) = [false]
    /\ fetches (settled_trace net (sendMessage q f)) = []
    /\ keeps_input (settled_trace net (sendMessage q f)) = true
    /\ snd (run net (pending (sendMessage q f))) = inr tt.
Proof.
  intros Hd. unfold settled_trace.
  destruct (settled_shape net _ _ Hd) as (pre & v & Hrun & Ha & Hl & Hf & Hk).
  exists v. rewrite Hrun; simpl.
  rewrite appended_app, loading_writes_app, fetches_app, keeps_input_app.
  rewrite Ha, Hl, Hf, Hk. repeat split.
Qed.

End Lifecycle.

(** C1: for every dispatched turn (the text is not white space only, or a
    file is staged), the call appends exactly one user message before it
    first awaits, and the settlement of the network call appends exactly
    one bot message, whatever the network answers. *)
Theorem C1_one_user_then_one_bot_message
  (q : jsstring) (f : option File) (net : Network) :
  dispatched q f = true ->
  appended (sync_trace (sendMessage q f)) = [user_message q f]
  /\ (forall st,
        messages (exec (sync_trace (sendMessage q f)) st)
        = messages st ++ [user_message q f])
  /\ exists b,
       sender b = bot
       /\ appended (settled_trace net (sendMessage q f)) = [b]
       /\ forall st,
            messages (exec (settled_trace net (sendMessage q f)) st)
            = messages st ++ [b].
Proof.
  intros Hd.
  assert (Hs : appended (sync_trace (sendMessage q f)) = [user_message q f])
    by (rewrite (sendMessage_sync _ _ Hd); reflexivity).
  split; [exact Hs|]. split.
  - intros st. rewrite messages_exec, Hs. reflexivity.
  - destruct (settled_summary net _ _ Hd) as (v & Ha & _).
    exists (bot_message v). split; [reflexivity|]. split; [exact Ha|].
    intros st. rewrite messages_exec, Ha. reflexivity.
Qed.

(** C2: for every dispatched call, the pending flag is written [true]
    before the first await, so it is true while the network call is in
    flight, and every settlement writes [false] to it exactly once and
    leaves it false. *)
Theorem C2_pending_flag_set_then_reset_once
  (q : jsstring) (f : option File) (net : Network) :
  dispatched q f = true ->
  loading_writes (sync_trace (sendMessage q f)) = [true]
  /\ (forall st, loading (exec (sync_trace (sendMessage q f)) st) = true)
  /\ loading_writes (settled_trace net (sendMessage q f)) = [false]
  /\ (forall st,
        loading (exec (settled_trace net (sendMessage q f)) st) = false).
Proof.
  intros Hd.
  assert (Hs : loading_writes (sync_trace (sendMessage q f)) = [true])
    by (rewrite (sendMessage_sync _ _ Hd); reflexivity).
  destruct (settled_summary net _ _ Hd) as (v & _ & Hl & _).
  repeat split; try assumption; intros st; rewrite loading_exec.
  - rewrite Hs; reflexivity.
  - rewrite Hl; reflexivity.
Qed.

(** C3: if the text is empty or white space only and no file is staged,
    the call returns at once: it appends no message, issues no request
    and leaves every part of the state as it was. *)
Theorem C3_blank_input_is_a_noop (q : jsstring) (net : Network) (st : State) :
  whitespace_only q = true ->
  sendMessage q None = Ret tt
  /\ run net (sendMessage q None) = ([], inr tt)
  /\ exec (fst (run net (sendMessage q None))) st = st.
Proof.
  intros Hw.
  assert (H : sendMessage q None = Ret tt).
  { apply sendMessage_rejected. unfold dispatched. rewrite Hw. reflexivity. }
  rewrite H. repeat split.
Qed.

(** The send handler does nothing on such an input either. *)
Lemma handleSend_guard (st : State) :
  JsString.truthy (JsString.trim (inputText st)) || is_some (pdfFile st)
  = dispatched (inputText st) (pdfFile st).
Proof. unfold dispatched. rewrite trim_truthy. reflexivity. Qed.

Lemma handleSend_blank (st : State) :
  whitespace_only (inputText st) = true ->
  pdfFile st = None ->
  handleSend st = {| now := []; later := [] |}.
Proof.
  intros Hw Hf. unfold handleSend.
  rewrite handleSend_guard. unfold dispatched. rewrite Hw, Hf. reflexivity.
Qed.

Lemma failed_turn_intro q f net err :
  dispatched q f = true ->
  run net (pending (sendMessage q f)) = (error_trace err, inr tt) ->
  failed_turn q f net err.
Proof.
  intros Hd Hrun.
  assert (Hs : settled_trace net (sendMessage q f) = error_trace err)
    by (unfold settled_trace; rewrite Hrun; reflexivity).
  split.
  - rewrite run_split, Hs, Hrun, (sendMessage_sync _ _ Hd). reflexivity.
  - intros st. rewrite Hs, messages_exec, loading_exec, requests_exec.
    simpl. rewrite app_nil_r. repeat split.
Qed.

(** C4: both failure kinds end the turn without a second request and show
    only as a bot message, with the pending flag ending false.  A response
    whose status is not a success status, a rejected [fetch] and a body
    that does not parse all lead to the bot message with the text
    [ERROR_TEXT], which contains "Error connecting to server". *)
Theorem C4_failures_become_one_bot_message
  (q : jsstring) (f : option File) (net : Network) :
  dispatched q f = true ->
  (forall res,
      net ASK_URL (request q f) = inr res -> ok res = false ->
      failed_turn q f net (server_error res))
  /\ (forall e,
        net ASK_URL (request q f) = inl e -> failed_turn q f net e)
  /\ (forall res e,
        net ASK_URL (request q f) = inr res -> ok res = true ->
        json res = inl e ->
        failed_turn q f net e)
  /\ JsString.includes ERROR_TEXT (JsString.lit "Error connecting to server")
     = true.
Proof.
  intros Hd. split; [|split; [|split; [|reflexivity]]].
  - intros res Hnet Hok.
    apply failed_turn_intro; [exact Hd|].
    eapply settled_not_ok; eassumption.
  - intros e Hnet.
    apply failed_turn_intro; [exact Hd|].
    eapply settled_fetch_rejected; eassumption.
  - intros res e Hnet Hok Hjson.
    apply failed_turn_intro; [exact Hd|].
    eapply settled_json_rejected; eassumption.
Qed.

(** ** The reply field *)

Section ReplyField.

Lemma lookup_find key members :
  Js.lookup key members
  = match find (fun kv => JsString.eqb (fst kv) key) members with
    | Some kv => snd kv
    | None => VUndefined
    end.
Proof.
  induction members as [|[k v] members IH]; simpl; [reflexivity|].
  destruct (JsString.eqb k key); [reflexivity | exact IH].
Qed.

Lemma get_response_field data :
  nullish data = false ->
  get_response data
  = Ret match field RESPONSE data with
        | Some v => v
        | None => VUndefined
        end.
Proof.
  destruct data; simpl; intros H; try discriminate; try reflexivity.
  fold RESPONSE. rewrite lookup_find.
  destruct (find _ members); reflexivity.
Qed.

Lemma get_response_nullish data :
  nullish data = true -> exists e, get_response data = Throw e.
Proof. destruct data; simpl; intros H; try discriminate; eauto. Qed.

Variable net : Network.

(** The bot message of a success response whose body can be read. *)
Lemma settled_success q f res data :
  dispatched q f = true ->
  net ASK_URL (request q f) = inr res ->
  ok res = true ->
  json res = inr data ->
  nullish data = false ->
  appended (settled_trace net (sendMessage q f))
  = [bot_message
       (Js.or match field RESPONSE data with
              | Some v => v
              | None => VUndefined
              end
              (VStr NO_RESPONSE_TEXT))]
  /\ snd (run net (pending (sendMessage q f))) = inr tt.
Proof.
  intros Hd Hnet Hok Hjson Hn. unfold settled_trace.
  rewrite (settled_response_read net _ _ Hd Hnet Hok Hjson
             (get_response_field _ Hn)).
  split; reflexivity.
Qed.

End ReplyField.

(** ** Replies *)

(** C5, as amended: for a success response whose body has a reply field
    holding a non-empty string, the bot message's text is that string. *)
Theorem C5_nonempty_reply_is_shown_verbatim
  (q : jsstring) (f : option File) (net : Network)
  (res : Response) (data : JsValue) (s : jsstring) :
  dispatched q f = true ->
  net ASK_URL (request q f) = inr res ->
  ok res = true ->
  json res = inr data ->
  field RESPONSE data = Some (VStr s) ->
  s <> [] ->
  appended (settled_trace net (sendMessage q f)) = [bot_message (VStr s)].
Proof.
  intros Hd Hnet Hok Hjson Hfield Hs.
  assert (Hn : nullish data = false)
    by (destruct data; try reflexivity; discriminate Hfield).
  destruct (settled_success net _ _ Hd Hnet Hok Hjson Hn) as [Ha _].
  rewrite Ha, Hfield.
  destruct s; [congruence | reflexivity].
Qed.

(** C6, as amended: for a success response whose body is not [null] and
    has no reply field, the bot message carries the fallback text, which
    contains "No response field", and the call ends without a throw. *)
Theorem C6_missing_reply_field_falls_back
  (q : jsstring) (f : option File) (net : Network)
  (res : Response) (data : JsValue) :
  dispatched q f = true ->
  net ASK_URL (request q f) = inr res ->
  ok res = true ->
  json res = inr data ->
  nullish data = false ->
  field RESPONSE data = None ->
  appended (settled_trace net (sendMessage q f))
  = [bot_message (VStr NO_RESPONSE_TEXT)]
  /\ snd (run net (sendMessage q f)) = inr tt
  /\ JsString.includes NO_RESPONSE_TEXT (JsString.lit "No response field")
     = true.
Proof.
  intros Hd Hnet Hok Hjson Hn Hfield.
  destruct (settled_success net _ _ Hd Hnet Hok Hjson Hn) as [Ha Hr].
  rewrite Hfield in Ha. rewrite run_split. simpl snd.
  repeat split; assumption.
Qed.

(** C9: for a success response whose body has the reply field with the
    empty string as its value, the bot message carries the fallback text
    and not the empty string. *)
Theorem C9_empty_reply_falls_back
  (q : jsstring) (f : option File) (net : Network)
  (res : Response) (data : JsValue) :
  dispatched q f = true ->
  net ASK_URL (request q f) = inr res ->
  ok res = true ->
  json res = inr data ->
  field RESPONSE data = Some (VStr []) ->
  appended (settled_trace net (sendMessage q f))
  = [bot_message (VStr NO_RESPONSE_TEXT)]
  /\ VStr NO_RESPONSE_TEXT <> VStr [].
Proof.
  intros Hd Hnet Hok Hjson Hfield.
  assert (Hn : nullish data = false)
    by (destruct data; try reflexivity; discriminate Hfield).
  destruct (settled_success net _ _ Hd Hnet Hok Hjson Hn) as [Ha _].
  rewrite Ha, Hfield. split; [reflexivity | discriminate].
Qed.

(** ** Staged input *)

(** C7: a send clears the composed text and the staged file in the same
    handler run that dispatches the turn, and empties the value of the
    file input element; no settlement of the network call touches any of
    the three afterwards. *)
Theorem C7_send_clears_staged_input (st : State) (net : Network) :
  dispatched (inputText st) (pdfFile st) = true ->
  inputText (exec (now (handleSend st)) st) = []
  /\ pdfFile (exec (now (handleSend st)) st) = None
  /\ fileInput (exec (now (handleSend st)) st)
     = option_map (fun _ => []) (fileInput st)
  /\ later (handleSend st) = [pending (sendMessage (inputText st) (pdfFile st))]
  /\ forall p s,
       In p (later (handleSend st)) ->
       inputText (exec (fst (run net p)) s) = inputText s
       /\ pdfFile (exec (fst (run net p)) s) = pdfFile s
       /\ fileInput (exec (fst (run net p)) s) = fileInput s.
Proof.
  intros Hd. unfold handleSend. rewrite handleSend_guard, Hd.
  cbn [now later].
  assert (Hk : keeps_input
                 (sync_trace (sendMessage (inputText st) (pdfFile st)))
               = true)
    by (rewrite (sendMessage_sync _ _ Hd); reflexivity).
  destruct (keeps_input_exec _ Hk st) as (_ & _ & Hfi).
  rewrite exec_app.
  set (s1 := exec (sync_trace (sendMessage (inputText st) (pdfFile st))) st)
    in *.
  split; [|split; [|split; [|split]]].
  - destruct (fileInput st); reflexivity.
  - destruct (fileInput st); reflexivity.
  - destruct (fileInput st) eqn:E; simpl; rewrite Hfi; reflexivity.
  - reflexivity.
  - intros p s [<-|[]].
    destruct (settled_summary net _ _ Hd) as (v & _ & _ & _ & Hk' & _).
    exact (keeps_input_exec _ Hk' s).
Qed.

(** C8: a selection whose first file does not have the media type
    [application/pdf] does nothing at all, and neither does an empty
    selection; a first file of that type becomes the staged file. *)
Theorem C8_only_a_pdf_is_staged
  (file : File) (rest : list File) (st : State) :
  (type file <> PDF_TYPE ->
   handleFileSelect (Some (file :: rest)) = []
   /\ exec (handleFileSelect (Some (file :: rest))) st = st)
  /\ (type file = PDF_TYPE ->
      handleFileSelect (Some (file :: rest)) = [setPdfFile (Some file)]
      /\ pdfFile (exec (handleFileSelect (Some (file :: rest))) st)
         = Some file)
  /\ handleFileSelect (Some []) = []
  /\ handleFileSelect None = [].
Proof.
  unfold handleFileSelect; simpl.
  split; [|split; [|split; reflexivity]].
  - intros Hne. apply eqb_neq in Hne. rewrite Hne. split; reflexivity.
  - intros He. apply eqb_eq in He. rewrite He. split; reflexivity.
Qed.

(** C10: the user message of a dispatched turn carries the text as it was
    given, not trimmed; so a text of white space only sent with a staged
    file is appended as it is, with the file's name. *)
Theorem C10_user_text_is_verbatim (q : jsstring) (f : option File) :
  dispatched q f = true ->
  appended (sync_trace (sendMessage q f))
  = [{| sender := user; text := VStr q; pdf := option_map name f |}].
Proof.
  intros Hd. rewrite (sendMessage_sync _ _ Hd). reflexivity.
Qed.

(** ** The properties on the sample inputs *)

(** A text and no file, answered with a reply. *)
Lemma C1_witness :
  dispatched hello None = true
  /\ appended (sync_trace (sendMessage hello None)) = [user_message hello None]
  /\ exists b,
       sender b = bot
       /\ appended (settled_trace (answers (success (reply hello)))
                      (sendMessage hello None)) = [b]
       /\ forall st,
            messages (exec (settled_trace (answers (success (reply hello)))
                              (sendMessage hello None)) st)
            = messages st ++ [b].
Proof.
  split; [reflexivity|].
  destruct (C1_one_user_then_one_bot_message
              hello None (answers (success (reply hello))) eq_refl)
    as (Hu & _ & Hb).
  split; [exact Hu | exact Hb].
Defined.

(** A text with a file, answered with status 500. *)
Lemma C2_witness :
  dispatched hello (Some report) = true
  /\ loading_writes (sync_trace (sendMessage hello (Some report))) = [true]
  /\ loading_writes (settled_trace (answers http_500)
                       (sendMessage hello (Some report))) = [false]
  /\ loading (exec (settled_trace (answers http_500)
                      (sendMessage hello (Some report)))
                (exec (sync_trace (sendMessage hello (Some report))) initial))
     = false.
Proof.
  split; [reflexivity|].
  destruct (C2_pending_flag_set_then_reset_once
              hello (Some report) (answers http_500) eq_refl)
    as (H1 & _ & H3 & H4).
  split; [exact H1|]. split; [exact H3 | apply H4].
Defined.

(** Three blanks and no file. *)
Lemma C3_witness :
  whitespace_only blank = true
  /\ run (answers (success (reply hello))) (sendMessage blank None)
     = ([], inr tt)
  /\ exec (fst (run (answers (success (reply hello)))
                  (sendMessage blank None))) initial
     = initial.
Proof.
  split; [reflexivity|].
  destruct (C3_blank_input_is_a_noop
              blank (answers (success (reply hello))) initial eq_refl)
    as (_ & H2 & H3).
  split; [exact H2 | exact H3].
Defined.

(** Status 500, a rejected [fetch], and a body that does not parse. *)
Lemma C4_witness :
  dispatched hello None = true
  /\ ok {| status := 500; json := inr (VObj []) |} = false
  /\ failed_turn hello None (answers http_500)
       (Error (JsString.lit "Server error: 500"))
  /\ failed_turn hello None (answers offline)
       (TypeError (JsString.lit "Failed to fetch"))
  /\ failed_turn hello None (answers garbled)
       (SyntaxError (JsString.lit "Unexpected token")).
Proof.
  split; [reflexivity|]. split; [reflexivity|].
  split; [|split].
  - exact (proj1 (C4_failures_become_one_bot_message
                    hello None (answers http_500) eq_refl)
             _ eq_refl eq_refl).
  - exact (proj1 (proj2 (C4_failures_become_one_bot_message
                           hello None (answers offline) eq_refl))
             _ eq_refl).
  - exact (proj1 (proj2 (proj2 (C4_failures_become_one_bot_message
                                  hello None (answers garbled) eq_refl)))
             _ _ eq_refl eq_refl eq_refl).
Defined.

(** The body [{ "response": "Take two tablets." }]. *)
Lemma C5_witness :
  appended
    (settled_trace
       (answers (success (reply (JsString.lit "Take two tablets."))))
       (sendMessage hello None))
  = [bot_message (VStr (JsString.lit "Take two tablets."))].
Proof.
  apply (C5_nonempty_reply_is_shown_verbatim
           hello None
           (answers (success (reply (JsString.lit "Take two tablets."))))
           (res := {| status := 200;
                      json := inr (reply (JsString.lit "Take two tablets.")) |})
           (data := reply (JsString.lit "Take two tablets.")));
    try reflexivity.
  discriminate.
Defined.

(** The body [{ "response": "" }]: the reply field is textual, and the bot
    message does not carry its value. *)
Lemma C5_counterexample :
  field RESPONSE (reply []) = Some (VStr [])
  /\ ok {| status := 200; json := inr (reply []) |} = true
  /\ appended (settled_trace (answers (success (reply [])))
                 (sendMessage hello None))
     = [bot_message (VStr NO_RESPONSE_TEXT)]
  /\ appended (settled_trace (answers (success (reply [])))
                 (sendMessage hello None))
     <> [bot_message (VStr [])].
Proof.
  split; [reflexivity|]. split; [reflexivity|]. split; [reflexivity|].
  vm_compute. discriminate.
Qed.

(** The body [{}]. *)
Lemma C6_witness :
  nullish (VObj []) = false
  /\ field RESPONSE (VObj []) = None
  /\ appended (settled_trace (answers (success (VObj [])))
                 (sendMessage hello None))
     = [bot_message (VStr NO_RESPONSE_TEXT)].
Proof.
  split; [reflexivity|]. split; [reflexivity|].
  exact (proj1 (C6_missing_reply_field_falls_back
                  hello None (answers (success (VObj [])))
                  (res := {| status := 200; json := inr (VObj []) |})
                  eq_refl eq_refl eq_refl eq_refl eq_refl eq_refl)).
Defined.

(** The body [null]: it has no reply field, reading the field throws, and
    the bot message carries the error text and not the fallback text. *)
Lemma C6_counterexample :
  field RESPONSE VNull = None
  /\ ok {| status := 200; json := inr VNull |} = true
  /\ run (answers (success VNull)) (pending (sendMessage hello None))
     = ([console_log (JsString.lit "API Response:") VNull;
         console_error (JsString.lit "Fetch error:")
           (TypeError
              (JsString.lit
                 "Cannot read properties of null (reading 'response')"));
         setMessages_append (bot_message (VStr ERROR_TEXT));
         setLoading false],
        inr tt)
  /\ appended (settled_trace (answers (success VNull))
                 (sendMessage hello None))
     <> [bot_message (VStr NO_RESPONSE_TEXT)]
  /\ JsString.includes ERROR_TEXT (JsString.lit "No response field") = false.
Proof.
  split; [reflexivity|]. split; [reflexivity|]. split; [reflexivity|].
  split; [vm_compute; discriminate | reflexivity].
Qed.

(** A text and a picked file in the state, the picker showing the file. *)
Lemma C7_witness :
  let st :=
    {| messages := []; loading := false; inputText := hello;
       pdfFile := Some report;
       fileInput := Some (JsString.lit "C:\fakepath\report.pdf");
       requests := []; console := [] |} in
  dispatched (inputText st) (pdfFile st) = true
  /\ inputText (exec (now (handleSend st)) st) = []
  /\ pdfFile (exec (now (handleSend st)) st) = None
  /\ fileInput (exec (now (handleSend st)) st) = Some [].
Proof.
  intros st. split; [reflexivity|].
  destruct (C7_send_clears_staged_input st (answers offline) eq_refl)
    as (H1 & H2 & H3 & _).
  split; [exact H1|]. split; [exact H2 | exact H3].
Defined.

(** A picture is ignored, a PDF is staged. *)
Lemma C8_witness :
  type photo <> PDF_TYPE
  /\ exec (handleFileSelect (Some [photo])) initial = initial
  /\ type report = PDF_TYPE
  /\ pdfFile (exec (handleFileSelect (Some [report])) initial) = Some report.
Proof.
  assert (Hne : type photo <> PDF_TYPE) by (vm_compute; discriminate).
  split; [exact Hne|].
  split.
  - exact (proj2 (proj1 (C8_only_a_pdf_is_staged photo [] initial) Hne)).
  - split; [reflexivity|].
    exact (proj2 (proj1 (proj2 (C8_only_a_pdf_is_staged report [] initial))
                    eq_refl)).
Defined.

(** The body [{ "response": "" }]. *)
Lemma C9_witness :
  field RESPONSE (reply []) = Some (VStr [])
  /\ appended (settled_trace (answers (success (reply [])))
                 (sendMessage hello None))
     = [bot_message (VStr NO_RESPONSE_TEXT)].
Proof.
  split; [reflexivity|].
  exact (proj1 (C9_empty_reply_falls_back
                  hello None (answers (success (reply [])))
                  (res := {| status := 200; json := inr (reply []) |})
                  eq_refl eq_refl eq_refl eq_refl eq_refl)).
Defined.

(** Three blanks sent with a staged file. *)
Lemma C10_witness :
  whitespace_only blank = true
  /\ JsString.trim blank = []
  /\ dispatched blank (Some report) = true
  /\ appended (sync_trace (sendMessage blank (Some report)))
     = [{| sender := user; text := VStr blank;
           pdf := Some (JsString.lit "report.pdf") |}].
Proof.
  split; [reflexivity|]. split; [reflexivity|]. split; [reflexivity|].
  exact (C10_user_text_is_verbatim blank (Some report) eq_refl).
Defined.

(** * Further properties of the component *)

(** ** The dispatcher as a whole *)

(** The promise that [sendMessage] returns is never rejected: whatever the
    arguments and whatever the network does, the call ends by returning. *)
Theorem sendMessage_never_throws
  (q : jsstring) (f : option File) (net : Network) :
  snd (run net (sendMessage q f)) = inr tt.
Proof.
  destruct (dispatched q f) eqn:Hd.
  - rewrite run_split. simpl snd.
    destruct (settled_summary net _ _ Hd) as (v & _ & _ & _ & _ & Hr).
    exact Hr.
  - rewrite (sendMessage_rejected _ _ Hd). reflexivity.
Qed.


(** The reply field is shown by truthiness, not by type: a truthy value
    of any kind (a number, an object) becomes the bot message's text as
    it is, and a falsy one ([null], [false], [0], the empty string) gives
    the fallback text. *)
Theorem reply_is_shown_when_truthy
  (q : jsstring) (f : option File) (net : Network)
  (res : Response) (data v : JsValue) :
  dispatched q f = true ->
  net ASK_URL (request q f) = inr res ->
  ok res = true ->
  json res = inr data ->
  field RESPONSE data = Some v ->
  appended (settled_trace net (sendMessage q f))
  = [bot_message (if Js.truthy v then v else VStr NO_RESPONSE_TEXT)].
Proof.
  intros Hd Hnet Hok Hjson Hfield.
  assert (Hn : nullish data = false)
    by (destruct data; try reflexivity; discriminate Hfield).
  destruct (settled_success net _ _ Hd Hnet Hok Hjson Hn) as [Ha _].
  rewrite Ha, Hfield. reflexivity.
Qed.

Lemma reply_is_shown_when_truthy_witness :
  appended (settled_trace
              (answers (success (VObj [(RESPONSE, VNum 5%float)])))
              (sendMessage hello None))
  = [bot_message (VNum 5%float)]
  /\ appended (settled_trace
                 (answers (success (VObj [(RESPONSE, VNum 0%float)])))
                 (sendMessage hello None))
     = [bot_message (VStr NO_RESPONSE_TEXT)]
  /\ appended (settled_trace
                 (answers (success (VObj [(RESPONSE, VNull)])))
                 (sendMessage hello None))
     = [bot_message (VStr NO_RESPONSE_TEXT)].
Proof.
  split; [|split].
  - exact (reply_is_shown_when_truthy
             hello None
             (answers (success (VObj [(RESPONSE, VNum 5%float)])))
             (res := {| status := 200;
                        json := inr (VObj [(RESPONSE, VNum 5%float)]) |})
             eq_refl eq_refl eq_refl eq_refl eq_refl).
  - exact (reply_is_shown_when_truthy
             hello None
             (answers (success (VObj [(RESPONSE, VNum 0%float)])))
             (res := {| status := 200;
                        json := inr (VObj [(RESPONSE, VNum 0%float)]) |})
             eq_refl eq_refl eq_refl eq_refl eq_refl).
  - exact (reply_is_shown_when_truthy
             hello None
             (answers (success (VObj [(RESPONSE, VNull)])))
             (res := {| status := 200;
                        json := inr (VObj [(RESPONSE, VNull)]) |})
             eq_refl eq_refl eq_refl eq_refl eq_refl).
Defined.

(** A success response whose body is [null] ends in the [catch] block: the
    body is logged, reading its [response] throws, the thrown value is
    logged as an error and the bot message carries the error text. *)
Theorem null_body_is_reported_as_an_error
  (q : jsstring) (f : option File) (net : Network) (res : Response) :
  dispatched q f = true ->
  net ASK_URL (request q f) = inr res ->
  ok res = true ->
  json res = inr VNull ->
  run net (pending (sendMessage q f))
  = ([console_log (JsString.lit "API Response:") VNull;
      console_error (JsString.lit "Fetch error:")
        (TypeError
           (JsString.lit
              "Cannot read properties of null (reading 'response')"));
      setMessages_append (bot_message (VStr ERROR_TEXT));
      setLoading false],
     inr tt).
Proof.
  intros Hd Hnet Hok Hjson.
  exact (settled_response_throws net _ _ Hd Hnet Hok Hjson eq_refl).
Qed.

Lemma null_body_is_reported_as_an_error_witness :
  appended (settled_trace (answers (success VNull))
              (sendMessage hello (Some report)))
  = [bot_message (VStr ERROR_TEXT)].
Proof.
  unfold settled_trace.
  rewrite (null_body_is_reported_as_an_error
             hello (Some report) (answers (success VNull))
             (res := {| status := 200; json := inr VNull |})
             eq_refl eq_refl eq_refl eq_refl).
  reflexivity.
Defined.

(** ** The send handler and the controls *)

Lemma send_disabled_spec (st : State) :
  send_disabled st
  = loading st || negb (dispatched (inputText st) (pdfFile st)).
Proof. unfold send_disabled. rewrite guard_dispatched. reflexivity. Qed.

Lemma handleSend_now (st : State) :
  dispatched (inputText st) (pdfFile st) = true ->
  appended (now (handleSend st))
  = [user_message (inputText st) (pdfFile st)]
  /\ loading_writes (now (handleSend st)) = [true]
  /\ fetches (now (handleSend st))
     = [(ASK_URL, request (inputText st) (pdfFile st))]
  /\ later (handleSend st)
     = [pending (sendMessage (inputText st) (pdfFile st))].
Proof.
  intros Hd. unfold handleSend. rewrite handleSend_guard, Hd.
  cbn [now later].
  rewrite appended_app, loading_writes_app, fetches_app.
  rewrite (sendMessage_sync _ _ Hd).
  destruct (fileInput st); repeat split.
Qed.

Lemma handleSend_not_dispatched (st : State) :
  dispatched (inputText st) (pdfFile st) = false ->
  handleSend st = nothing.
Proof.
  intros Hd. unfold handleSend. rewrite handleSend_guard, Hd. reflexivity.
Qed.

Lemma handleSend_clears (st : State) :
  dispatched (inputText st) (pdfFile st) = true ->
  inputText (exec (now (handleSend st)) st) = []
  /\ pdfFile (exec (now (handleSend st)) st) = None.
Proof.
  intros Hd. unfold handleSend. rewrite handleSend_guard, Hd.
  cbn [now]. rewrite exec_app.
  destruct (fileInput st); split; reflexivity.
Qed.

(** [handleSend] and the send button agree: on a component that is not
    awaiting a reply, an enabled button dispatches a turn (one user
    message, the flag set, one request, one call left waiting), and a
    disabled one would do nothing at all. *)
Theorem send_button_agrees_with_handleSend (st : State) :
  loading st = false ->
  (send_disabled st = false ->
   appended (now (handleSend st))
   = [user_message (inputText st) (pdfFile st)]
   /\ loading (exec (now (handleSend st)) st) = true
   /\ fetches (now (handleSend st))
      = [(ASK_URL, request (inputText st) (pdfFile st))]
   /\ List.length (later (handleSend st)) = 1%nat)
  /\ (send_disabled st = true -> handleSend st = nothing).
Proof.
  intros Hl. rewrite send_disabled_spec, Hl. simpl.
  split; intros Hd.
  - apply negb_false_iff in Hd.
    destruct (handleSend_now st Hd) as (Ha & Hw & Hf & Hlater).
    rewrite loading_exec, Hw, Hlater. repeat split; assumption.
  - apply negb_true_iff in Hd. exact (handleSend_not_dispatched st Hd).
Qed.

Lemma send_button_agrees_with_handleSend_witness :
  let typed :=
    {| messages := []; loading := false; inputText := hello;
       pdfFile := None; fileInput := Some [];
       requests := []; console := [] |} in
  fetches (now (handleSend typed)) = [(ASK_URL, request hello None)]
  /\ handleSend initial = nothing.
Proof.
  intros typed. split.
  - destruct (proj1 (send_button_agrees_with_handleSend typed eq_refl)
                eq_refl) as (_ & _ & Hf & _).
    exact Hf.
  - exact (proj2 (send_button_agrees_with_handleSend initial eq_refl)
             eq_refl).
Defined.

(** The Enter key: without Shift it does what the send button does and
    suppresses the key's default; on a blank input with no staged file it
    still suppresses the default and changes nothing; with Shift, or for
    any other key, the handler does nothing and leaves the default. *)
Theorem handleKeyPress_sends_on_plain_enter
  (e : KeyboardEvent) (st : State) :
  (key e = JsString.lit "Enter" -> shiftKey e = false ->
   handleKeyPress e st
   = {| defaultPrevented := true; handled := handleSend st |}
   /\ (dispatched (inputText st) (pdfFile st) = false ->
       handleKeyPress e st
       = {| defaultPrevented := true; handled := nothing |}))
  /\ (shiftKey e = true \/ key e <> JsString.lit "Enter" ->
      handleKeyPress e st
      = {| defaultPrevented := false; handled := nothing |}).
Proof.
  unfold handleKeyPress. split.
  - intros Hk Hs. apply eqb_eq in Hk. rewrite Hk, Hs. simpl.
    split; [reflexivity|].
    intros Hd. rewrite (handleSend_not_dispatched st Hd). reflexivity.
  - intros [Hs|Hk].
    + rewrite Hs, andb_false_r. reflexivity.
    + apply eqb_neq in Hk. rewrite Hk. reflexivity.
Qed.

Lemma handleKeyPress_sends_on_plain_enter_witness :
  handleKeyPress {| key := JsString.lit "Enter"; shiftKey := false |} initial
  = {| defaultPrevented := true; handled := nothing |}
  /\ handleKeyPress {| key := JsString.lit "Enter"; shiftKey := true |}
       initial
     = {| defaultPrevented := false; handled := nothing |}.
Proof.
  split.
  - exact (proj2 (proj1 (handleKeyPress_sends_on_plain_enter
                           {| key := JsString.lit "Enter";
                              shiftKey := false |} initial)
                    eq_refl eq_refl) eq_refl).
  - exact (proj2 (handleKeyPress_sends_on_plain_enter
                    {| key := JsString.lit "Enter"; shiftKey := true |}
                    initial) (or_introl eq_refl)).
Defined.



(** A whole turn.  From any state in which the guard passes, the send
    followed by the settlement of its request, whatever the outcome,
    extends the thread by the user message and one bot message, leaves
    the flag false and the input cleared, and has issued one request. *)
Theorem send_then_settle (st : State) (net : Network) :
  dispatched (inputText st) (pdfFile st) = true ->
  exists v,
    messages (exec (settled_trace net
                      (sendMessage (inputText st) (pdfFile st)))
                (exec (now (handleSend st)) st))
    = messages st
      ++ [user_message (inputText st) (pdfFile st); bot_message v]
    /\ loading (exec (settled_trace net
                        (sendMessage (inputText st) (pdfFile st)))
                  (exec (now (handleSend st)) st)) = false
    /\ inputText (exec (settled_trace net
                          (sendMessage (inputText st) (pdfFile st)))
                    (exec (now (handleSend st)) st)) = []
    /\ pdfFile (exec (settled_trace net
                        (sendMessage (inputText st) (pdfFile st)))
                  (exec (now (handleSend st)) st)) = None
    /\ requests (exec (settled_trace net
                         (sendMessage (inputText st) (pdfFile st)))
                   (exec (now (handleSend st)) st))
       = requests st ++ [(ASK_URL, request (inputText st) (pdfFile st))].
Proof.
  intros Hd.
  destruct (settled_summary net _ _ Hd) as (v & Ha & Hw & Hf & Hk & _).
  destruct (handleSend_now st Hd) as (Ha' & _ & Hf' & _).
  destruct (handleSend_clears st Hd) as (Hi & Hp).
  destruct (keeps_input_exec _ Hk (exec (now (handleSend st)) st))
    as (Hi' & Hp' & _).
  exists v.
  rewrite !messages_exec, !requests_exec, loading_exec.
  rewrite Ha, Ha', Hw, Hf, Hf', Hi', Hp', Hi, Hp, app_nil_r, <- app_assoc.
  repeat split.
Qed.

Lemma send_then_settle_witness :
  let typed :=
    {| messages := []; loading := false; inputText := hello;
       pdfFile := Some report; fileInput := Some [];
       requests := []; console := [] |} in
  exists v,
    messages (exec (settled_trace (answers http_500)
                      (sendMessage hello (Some report)))
                (exec (now (handleSend typed)) typed))
    = [user_message hello (Some report); bot_message v].
Proof.
  intros typed.
  destruct (send_then_settle typed (answers http_500) eq_refl)
    as (v & Hm & _).
  exists v. exact Hm.
Defined.

(** ** The component in use *)

Section SessionFacts.

Lemma list_pair_ind (A : Type) (P : list A -> Prop) :
  P [] ->
  (forall x, P [x]) ->
  (forall x y l, P l -> P (x :: y :: l)) ->
  forall l, P l.
Proof.
  intros H0 H1 H2 l.
  enough (H : P l /\ forall x, P (x :: l)) by exact (proj1 H).
  induction l as [|y l [IH1 IH2]]; split; auto.
Qed.

Lemma well_threaded_user ms u :
  well_threaded false ms = true ->
  is_user u = true ->
  well_threaded true (ms ++ [u]) = true.
Proof.
  intros H Hu. induction ms as [| x | x y l IH] using list_pair_ind.
  - simpl. rewrite Hu. reflexivity.
  - simpl in H. rewrite andb_false_r in H. discriminate.
  - simpl in *. apply andb_true_iff in H as [Hx H].
    apply andb_true_iff in H as [Hy H].
    rewrite Hx, Hy. simpl. exact (IH H).
Qed.

Lemma well_threaded_bot ms b :
  well_threaded true ms = true ->
  is_user b = false ->
  well_threaded false (ms ++ [b]) = true.
Proof.
  intros H Hb. induction ms as [| x | x y l IH] using list_pair_ind.
  - discriminate.
  - simpl in *. rewrite andb_true_r in H. rewrite H, Hb. reflexivity.
  - simpl in *. apply andb_true_iff in H as [Hx H].
    apply andb_true_iff in H as [Hy H].
    rewrite Hx, Hy. simpl. exact (IH H).
Qed.

Lemma filter_user_app ms m :
  List.length (filter is_user (ms ++ [m]))
  = (List.length (filter is_user ms) + if is_user m then 1 else 0)%nat.
Proof.
  rewrite filter_app, length_app. simpl. destruct (is_user m); reflexivity.
Qed.

(** An event whose handler appends no message, leaves the flag alone and
    issues no request. *)
Lemma sound_quiet c tr :
  sound c ->
  appended tr = [] -> loading_writes tr = [] -> fetches tr = [] ->
  sound (commit {| now := tr; later := [] |} c).
Proof.
  intros (Ht & Hm & Hr & Hf) Ha Hw Hq.
  unfold sound, commit; cbn [state in_flight now later].
  rewrite messages_exec, loading_exec, requests_exec, Ha, Hw, Hq.
  rewrite !app_nil_r. simpl. repeat split; assumption.
Qed.

Lemma sound_send c :
  sound c ->
  loading (state c) = false ->
  sound (commit (handleSend (state c)) c).
Proof.
  intros Hc Hl.
  destruct (dispatched (inputText (state c)) (pdfFile (state c))) eqn:Hd.
  - destruct Hc as (Ht & Hm & Hr & Hf). rewrite Hl in Ht, Hf.
    destruct (handleSend_now _ Hd) as (Ha & Hw & Hq & Hlater).
    unfold sound, commit; cbn [state in_flight].
    rewrite messages_exec, loading_exec, requests_exec, Ha, Hw, Hq, Hlater.
    rewrite Hf. simpl last. cbv iota.
    split; [apply well_threaded_user; [exact Ht | reflexivity]|].
    split; [rewrite forallb_app, Hm; reflexivity|].
    split.
    + rewrite length_app, filter_user_app, Hr. reflexivity.
    + eexists; split; [reflexivity|].
      exists (inputText (state c)), (pdfFile (state c)). split; auto.
  - rewrite (handleSend_not_dispatched _ Hd).
    apply sound_quiet; auto.
Qed.

Lemma handleFileSelect_quiet files :
  appended (handleFileSelect files) = []
  /\ loading_writes (handleFileSelect files) = []
  /\ fetches (handleFileSelect files) = [].
Proof.
  unfold handleFileSelect.
  destruct (first_file files) as [file|]; [|repeat split].
  destruct (JsString.eqb (type file) PDF_TYPE); repeat split.
Qed.

Lemma sound_settled c n r p :
  sound c ->
  nth_error (in_flight c) n = Some p ->
  sound {| state := exec (fst (run (fun _ _ => r) p)) (state c);
           in_flight := remove_nth n (in_flight c) |}.
Proof.
  intros (Ht & Hm & Hr & Hf) Hn.
  destruct (loading (state c)) eqn:Hl.
  2:{ rewrite Hf in Hn. destruct n; discriminate. }
  destruct Hf as (p0 & Hin & q & f & Hd & Hp).
  rewrite Hin in *.
  destruct n as [|n]; [|destruct n; discriminate].
  injection Hn as <-. subst p0.
  destruct (settled_summary (fun _ _ => r) _ _ Hd)
    as (v & Ha & Hw & Hq & _).
  unfold settled_trace in Ha, Hw, Hq.
  unfold sound; cbn [state in_flight].
  rewrite messages_exec, loading_exec, requests_exec, Ha, Hw, Hq.
  rewrite app_nil_r. simpl last. cbv iota.
  split; [apply well_threaded_bot; [exact Ht | reflexivity]|].
  split; [rewrite forallb_app, Hm; reflexivity|].
  split; [rewrite filter_user_app, Hr; simpl; apply plus_n_O | reflexivity].
Qed.

Lemma sound_fire ev c c' :
  sound c -> fire ev c = Some c' -> sound c'.
Proof.
  intros Hc Hfire. destruct ev; simpl in Hfire.
  - destruct (textarea_disabled (state c)); [discriminate|].
    injection Hfire as <-. apply sound_quiet; auto.
  - destruct (textarea_disabled (state c)) eqn:Hl; [discriminate|].
    injection Hfire as <-. unfold handleKeyPress.
    destruct (JsString.eqb (key e) (JsString.lit "Enter")
              && negb (shiftKey e)); cbn [handled].
    + apply sound_send; assumption.
    + apply sound_quiet; auto.
  - destruct (send_disabled (state c)) eqn:Hs; [discriminate|].
    injection Hfire as <-.
    apply sound_send; [assumption|].
    unfold send_disabled in Hs. apply orb_false_iff in Hs. apply Hs.
  - injection Hfire as <-.
    destruct (handleFileSelect_quiet files) as (Ha & Hw & Hq).
    apply sound_quiet; assumption.
  - destruct (is_some (pdfFile (state c))); [|discriminate].
    injection Hfire as <-. apply sound_quiet; auto.
  - destruct (nth_error (in_flight c) n) as [p|] eqn:Hn; [|discriminate].
    injection Hfire as <-. apply sound_settled; assumption.
Qed.

Lemma sound_fire_all evs : forall c c',
  sound c -> fire_all evs c = Some c' -> sound c'.
Proof.
  induction evs as [|ev evs IH]; intros c c' Hc Hrun; simpl in Hrun.
  - injection Hrun as <-. exact Hc.
  - destruct (fire ev c) as [c1|] eqn:Hfire; [|discriminate].
    exact (IH _ _ (sound_fire _ Hc Hfire) Hrun).
Qed.

Lemma sound_mounted : sound mounted.
Proof. repeat split. Qed.

End SessionFacts.

(** While the component is used through its controls, the flag says
    exactly whether a call is waiting for the network, and never more
    than one call waits: the disabled textarea and send button keep a
    second turn from being dispatched before the first has settled. *)
Theorem at_most_one_call_waits (evs : list UiEvent) (c : Session) :
  fire_all evs mounted = Some c ->
  List.length (in_flight c) = if loading (state c) then 1%nat else 0%nat.
Proof.
  intros Hrun.
  destruct (sound_fire_all evs sound_mounted Hrun) as (_ & _ & _ & Hf).
  destruct (loading (state c)).
  - destruct Hf as (p & -> & _). reflexivity.
  - rewrite Hf. reflexivity.
Qed.

Lemma at_most_one_call_waits_witness :
  exists c,
    fire_all [Change hello; FileChange (Some [report]); ClickSend] mounted
    = Some c
    /\ loading (state c) = true
    /\ List.length (in_flight c) = 1%nat.
Proof.
  eexists. split; [reflexivity|]. split; [reflexivity|].
  exact (at_most_one_call_waits
           [Change hello; FileChange (Some [report]); ClickSend] eq_refl).
Defined.

(** The thread always alternates: a user message, then a bot message,
    and so on from the first message, with one user message left
    unanswered at the end exactly while the flag is set. *)
Theorem thread_alternates (evs : list UiEvent) (c : Session) :
  fire_all evs mounted = Some c ->
  well_threaded (loading (state c)) (messages (state c)) = true.
Proof.
  intros Hrun.
  exact (proj1 (sound_fire_all evs sound_mounted Hrun)).
Qed.

Lemma thread_alternates_witness :
  exists c,
    fire_all [Change hello; ClickSend; Settled 0 offline;
              FileChange (Some [report]);
              KeyDown {| key := JsString.lit "Enter"; shiftKey := false |}]
      mounted
    = Some c
    /\ map sender (messages (state c)) = [user; bot; user]
    /\ well_threaded (loading (state c)) (messages (state c)) = true.
Proof.
  eexists. split; [reflexivity|]. split; [reflexivity|].
  exact (thread_alternates
           [Change hello; ClickSend; Settled 0 offline;
            FileChange (Some [report]);
            KeyDown {| key := JsString.lit "Enter"; shiftKey := false |}]
           eq_refl).
Defined.

Lemma well_threaded_no_user awaited ms :
  well_threaded awaited ms = true ->
  filter is_user ms = [] -> ms = [].
Proof.
  destruct ms as [|u rest]; [reflexivity|]. simpl.
  destruct (is_user u); [discriminate 2 | discriminate 1].
Qed.

(** Every user message of the thread stands for one request that was
    issued, and no request was issued for anything else; so the welcome
    panel is shown exactly as long as no request has been issued. *)
Theorem one_request_per_user_message
  (evs : list UiEvent) (c : Session) (path : jsstring) :
  fire_all evs mounted = Some c ->
  List.length (requests (state c))
  = List.length (filter is_user (messages (state c)))
  /\ welcome (render path (state c))
     = Nat.eqb (List.length (requests (state c))) 0.
Proof.
  intros Hrun.
  destruct (sound_fire_all evs sound_mounted Hrun) as (Ht & _ & Hr & _).
  split; [exact Hr|].
  unfold render; cbn [welcome]. rewrite Hr.
  destruct (filter is_user (messages (state c))) eqn:Hu.
  - rewrite (well_threaded_no_user _ _ Ht Hu). reflexivity.
  - destruct (messages (state c)); [discriminate Hu | reflexivity].
Qed.

Lemma one_request_per_user_message_witness :
  exists c,
    fire_all [Change hello; ClickSend; Settled 0 (success (reply hello));
              Change hello; ClickSend] mounted
    = Some c
    /\ List.length (requests (state c)) = 2%nat
    /\ welcome (render (JsString.lit "/chat") (state c)) = false.
Proof.
  eexists. split; [reflexivity|]. split; [reflexivity|].
  exact (proj2 (one_request_per_user_message
                  [Change hello; ClickSend;
                   Settled 0 (success (reply hello));
                   Change hello; ClickSend]
                  (JsString.lit "/chat") eq_refl)).
Defined.

(** In what is rendered, a bot bubble never shows an attachment row and
    a user bubble always shows a string. *)
Theorem bubbles_are_dispatcher_made
  (evs : list UiEvent) (c : Session) (path : jsstring) (b : Bubble) :
  fire_all evs mounted = Some c ->
  In b (bubbles (render path (state c))) ->
  if isUser b
  then exists s, shown_text b = VStr s
  else attachment b = None.
Proof.
  intros Hrun Hin.
  destruct (sound_fire_all evs sound_mounted Hrun) as (_ & Hm & _).
  unfold render in Hin; cbn [bubbles] in Hin.
  apply in_map_iff in Hin as (m & <- & Hin).
  rewrite forallb_forall in Hm. specialize (Hm m Hin).
  unfold dispatcher_made in Hm. unfold ChatMessage; cbn.
  destruct (sender m).
  - destruct (text m); try discriminate. eauto.
  - destruct (pdf m); [discriminate | reflexivity].
Qed.

Lemma bubbles_are_dispatcher_made_witness :
  exists c,
    fire_all [FileChange (Some [report]); ClickSend;
              Settled 0 (success (reply hello))] mounted
    = Some c
    /\ bubbles (render (JsString.lit "/chat") (state c))
       = [{| isUser := true;
             attachment := Some (JsString.lit "report.pdf");
             shown_text := VStr [] |};
          {| isUser := false; attachment := None;
             shown_text := VStr hello |}]
    /\ exists s, VStr [] = VStr s.
Proof.
  eexists. split; [reflexivity|]. split; [reflexivity|].
  exact (bubbles_are_dispatcher_made
           [FileChange (Some [report]); ClickSend;
            Settled 0 (success (reply hello))]
           (JsString.lit "/chat")
           {| isUser := true;
              attachment := Some (JsString.lit "report.pdf");
              shown_text := VStr [] |}
           eq_refl (or_introl eq_refl)).
Defined.



(** While a reply is awaited, nothing the user can do on the controls
    appends a message, issues a request, touches the flag or adds a
    waiting call: typing, keys and the send button are off, and what is
    left (picking or removing a file) only changes the staged file. *)
Theorem no_submission_while_awaiting (ev : UiEvent) (c c' : Session) :
  loading (state c) = true ->
  (forall n r, ev <> Settled n r) ->
  fire ev c = Some c' ->
  messages (state c') = messages (state c)
  /\ requests (state c') = requests (state c)
  /\ loading (state c') = true
  /\ inputText (state c') = inputText (state c)
  /\ in_flight c' = in_flight c.
Proof.
  intros Hl Hev Hfire.
  destruct ev; simpl in Hfire;
    unfold textarea_disabled, send_disabled in Hfire;
    rewrite ?Hl in Hfire; simpl in Hfire; try discriminate.
  - injection Hfire as <-. unfold commit; cbn [state in_flight now later].
    rewrite app_nil_r. unfold handleFileSelect.
    destruct (first_file files) as [file|]; [|repeat split; assumption].
    destruct (JsString.eqb (type file) PDF_TYPE);
      repeat split; assumption.
  - destruct (is_some (pdfFile (state c))); [|discriminate].
    injection Hfire as <-. unfold commit; cbn [state in_flight now later].
    rewrite app_nil_r. repeat split; assumption.
  - exfalso. exact (Hev n r eq_refl).
Qed.

Lemma no_submission_while_awaiting_witness :
  exists c c',
    fire_all [Change hello; ClickSend] mounted = Some c
    /\ fire (FileChange (Some [report])) c = Some c'
    /\ requests (state c') = requests (state c)
    /\ fire ClickSend c' = None.
Proof.
  eexists. eexists. split; [reflexivity|]. split; [reflexivity|].
  split; [|reflexivity].
  assert (Hev : forall n r, FileChange (Some [report]) <> Settled n r)
    by (intros n r; discriminate).
  match goal with
  | |- requests (state ?c') = requests (state ?c) =>
      destruct (@no_submission_while_awaiting
                  (FileChange (Some [report])) c c' eq_refl Hev eq_refl)
        as (_ & Hr & _)
  end.
  exact Hr.
Defined.
